(** * FilamentController: the two browser front-end scripts

    The repository holds two Vue components that bind a page to the HTTP
    interface of a filament controller:

    - the status/control panel ([StatusPanel]): a timer polls [/status] and
      two buttons call [/filament-on] and [/filament-off];
    - the setup panel ([SetupPanel], [static/scripts/setup.js]): one load of
      [/status] when the component is mounted, a timer polling [/status], and
      a form posted to [/setup].

    The scripts are JavaScript, so the embedding starts with the fragment of
    the language they use: dynamically typed values, property reads that
    throw on [undefined] and [null], strict equality, IEEE 754 doubles, and
    promise chains of the shape [p.then(f).catch(g)].  Callbacks are
    functions in a state-and-exception monad over the component's data. *)

From Stdlib Require Import ZArith String Ascii List Lia.
From Stdlib Require Import Floats.SpecFloat.
From Stdlib Require Import Numbers.DecimalString.
From stdpp Require Import gmap strings.

Set Warnings "-register-all".
#[local] Open Scope string_scope.
#[local] Open Scope Z_scope.

(* ===================================================================== *)
(** * JavaScript values and numbers *)
(* ===================================================================== *)

Module Js.

(** A Number is an IEEE 754 binary64 value: 53 bits of precision, and
    [emax = 1024].  [spec_float] has one NaN, as JavaScript does. *)
Definition float64 : Type := spec_float.

Definition f64_prec : Z := 53.
Definition f64_emax : Z := 1024.

Definition f64_of_Z (z : Z) : float64 := binary_normalize f64_prec f64_emax z 0 false.
Definition f64_mul : float64 -> float64 -> float64 := SFmul f64_prec f64_emax.
Definition f64_div : float64 -> float64 -> float64 := SFdiv f64_prec f64_emax.
Definition f64_sub : float64 -> float64 -> float64 := SFsub f64_prec f64_emax.
Definition f64_eqb : float64 -> float64 -> bool := SFeqb.
Definition NaN : float64 := S754_nan.

(** The values the scripts handle: [undefined], and of what [JSON.parse]
    yields [null], Booleans, Numbers, strings and objects (arrays are
    outside the fragment).  An object is a reference: [ref] is its
    identity, which is all that [===] looks at, and [props] are its
    properties. *)
Inductive JsVal : Type :=
  | VUndefined
  | VNull
  | VBool (b : bool)
  | VNum (x : float64)
  | VStr (s : string)
  | VObj (ref : nat) (props : gmap string JsVal).

(** [a === b] (IsStrictlyEqual): same type and same value; NaN differs from
    itself, the two zeros are equal, objects are compared by identity. *)
Definition strict_equals (a b : JsVal) : bool :=
  match a, b with
  | VUndefined, VUndefined => true
  | VNull, VNull => true
  | VBool x, VBool y => Bool.eqb x y
  | VNum x, VNum y => f64_eqb x y
  | VStr x, VStr y => String.eqb x y
  | VObj r1 _, VObj r2 _ => Nat.eqb r1 r2
  | _, _ => false
  end.

(** [a !== b] *)
Definition strict_not_equals (a b : JsVal) : bool := negb (strict_equals a b).

(** [undefined] and [null] have no properties: reading one throws. *)
Definition ObjectCoercible (v : JsVal) : bool :=
  match v with
  | VUndefined | VNull => false
  | _ => true
  end.

(** [v.k] on a value that has properties.  On an object it is the property,
    or [undefined] when there is none.  The wrappers of the primitive types
    have none of the names the scripts read (they read [max_dac_value],
    [dac_bits], [computer_control], [filament_status_message] and
    [active_users]), so the read is [undefined] there. *)
Definition Get (v : JsVal) (k : string) : JsVal :=
  match v with
  | VObj _ props => default VUndefined (props !! k)
  | _ => VUndefined
  end.

(** ** [Number.prototype.toPrecision] *)

(** [ilog10_up fuel num den k]: the largest [e >= k] with
    [10^e * den <= num], for [10^k * den <= num]. *)
Fixpoint ilog10_up (fuel : nat) (num den k : Z) : Z :=
  match fuel with
  | O => k
  | S fuel' =>
      if 10 ^ (k + 1) * den <=? num then ilog10_up fuel' num den (k + 1) else k
  end.

(** [ilog10_down fuel num den k]: the least [j >= k] with
    [den <= num * 10^j]. *)
Fixpoint ilog10_down (fuel : nat) (num den k : Z) : Z :=
  match fuel with
  | O => k
  | S fuel' =>
      if den <=? num * 10 ^ k then k else ilog10_down fuel' num den (k + 1)
  end.

(** The floor of the decimal logarithm of [num / den], both positive.  A
    double lies between [2^-1074] and [2^1024], so its logarithm lies
    between -324 and 308. *)
Definition floor_log10 (num den : Z) : Z :=
  if den <=? num then ilog10_up 400 num den 0
  else - ilog10_down 400 num den 1.

Definition decimal_digits (n : Z) : string :=
  NilZero.string_of_uint (N.to_uint (Z.to_N n)).

Fixpoint zeros (k : nat) : string :=
  match k with
  | O => EmptyString
  | S k' => String "0" (zeros k')
  end.

(** The digits of [n] on exactly [p] places. *)
Definition padded_digits (p : Z) (n : Z) : string :=
  let d := decimal_digits n in
  zeros (Z.to_nat p - String.length d) +:+ d.

(** The digits [n] and the exponent [e] of the standard's algorithm, for a
    positive finite [x = num / den]: [n] has [p] digits and
    [n * 10^(e - p + 1)] is as close to [x] as possible, the larger one on
    a tie. *)
Definition precision_digits (num den p : Z) : Z * Z :=
  let e0 := floor_log10 num den in
  let k := e0 - p + 1 in
  let N := if 0 <=? k then num else num * 10 ^ (- k) in
  let D := if 0 <=? k then den * 10 ^ k else den in
  let n := (2 * N + D) / (2 * D) in
  if 10 ^ p <=? n then (10 ^ (p - 1), e0 + 1) else (n, e0).

Definition format_precision (s : string) (n e p : Z) : string :=
  let m := padded_digits p n in
  if (e <? -6) || (p <=? e) then
    let m' :=
      if p =? 1 then m
      else substring 0 1 m +:+ "." +:+ substring 1 (Z.to_nat (p - 1)) m in
    let c := if 0 <=? e then "+" else "-" in
    s +:+ m' +:+ "e" +:+ c +:+ decimal_digits (Z.abs e)
  else if e =? p - 1 then s +:+ m
  else if 0 <=? e then
    s +:+ substring 0 (Z.to_nat (e + 1)) m +:+ "."
      +:+ substring (Z.to_nat (e + 1)) (Z.to_nat (p - (e + 1))) m
  else
    s +:+ "0." +:+ zeros (Z.to_nat (- (e + 1))) +:+ m.

(** [x.toPrecision(p)] for [1 <= p <= 100] (outside that range the method
    throws a RangeError; the scripts call it with 2). *)
Definition Number_toPrecision (x : float64) (p : Z) : string :=
  match x with
  | S754_nan => "NaN"
  | S754_infinity false => "Infinity"
  | S754_infinity true => "-Infinity"
  | S754_zero _ => format_precision "" 0 0 p
  | S754_finite sg m ex =>
      let s := if sg then "-" else "" in
      let num := if 0 <=? ex then Zpos m * 2 ^ ex else Zpos m in
      let den := if 0 <=? ex then 1 else 2 ^ (- ex) in
      let '(n, e) := precision_digits num den p in
      format_precision s n e p
  end.

(** ** Conversions and built-in functions *)

(** The built-in functions the scripts call whose result is not settled by
    the source: [Math.pow] (the standard asks for an implementation's
    approximation), the global [parseFloat], and the reading of a text as a
    Number behind [ToNumber].  The handlers are stated for any
    implementation of them. *)
Class Builtins : Type := {
  Math_pow : float64 -> float64 -> float64;
  parseFloat : JsVal -> float64;
  StringToNumber : string -> float64
}.

(** ** Completions and callbacks *)

(** What a callback of a promise receives: the response object of axios
    (of which the scripts read [data] only), or the reason of a rejection.
    A rejection by axios carries [response] when the server answered with an
    error status and leaves it [undefined] otherwise; a [TypeError] thrown
    by a property read has no [response] property. *)
Module Axios.
Record Response : Type := { data : JsVal }.

Inductive Rejection : Type :=
  | AxiosError (response : option Response)
  | TypeError.

(** [error.response]; [None] is [undefined]. *)
Definition response_of (error : Rejection) : option Response :=
  match error with
  | AxiosError r => r
  | TypeError => None
  end.

Inductive Method : Type := GET | POST.

(** The entries of a [FormData], in the order of their [append]. *)
Definition FormData : Type := list (string * JsVal).

(** [new FormData()] *)
Definition new_FormData : FormData := nil.

(** [formData.append(name, value)] *)
Definition append (name : string) (value : JsVal) (formData : FormData) : FormData :=
  (formData ++ (name, value) :: nil)%list.

Record Request : Type := {
  method : Method;
  url : string;
  timeout : option Z;
  body : option FormData;
  headers : list (string * string)
}.

(** [axios.get(url)] and [axios.get(url, { timeout: t })]. *)
Definition get (u : string) (t : option Z) : Request :=
  {| method := GET; url := u; timeout := t; body := None; headers := nil |}.

(** How the promise of a request settles. *)
Inductive Outcome : Type :=
  | Fulfilled (response : Response)
  | Rejected (error : Rejection).
End Axios.

Inductive Completion (A : Type) : Type :=
  | Normal (a : A)
  | Throw (error : Axios.Rejection).
Arguments Normal {A} a.
Arguments Throw {A} error.

(** A callback over the state [St]: it may assign to the state, and ends
    normally or throws. *)
Definition JS (St A : Type) : Type := St -> Completion A * St.

Definition ret {St A} (a : A) : JS St A := fun st => (Normal a, st).

Definition bind {St A B} (m : JS St A) (k : A -> JS St B) : JS St B :=
  fun st =>
    match m st with
    | (Normal a, st') => k a st'
    | (Throw e, st') => (Throw e, st')
    end.

Definition throw {St A} (e : Axios.Rejection) : JS St A := fun st => (Throw e, st).

(** An expression that reads and writes nothing: its completion. *)
Definition lift {St A} (c : Completion A) : JS St A := fun st => (c, st).

(** Read and assignment of the state. *)
Definition read {St A} (f : St -> A) : JS St A := fun st => (Normal (f st), st).
Definition assign {St} (f : St -> St) : JS St unit := fun st => (Normal tt, f st).

Declare Scope js_scope.
Delimit Scope js_scope with js.
Notation "x <- m ;; k" := (bind m (fun x => k))
  (at level 100, m at next level, right associativity) : js_scope.
Notation "m ;; k" := (bind m (fun _ => k))
  (at level 100, right associativity) : js_scope.

(** [ToNumber], applied by the arithmetic operators and by [Math.pow] to
    their operands.  An object goes through [ToPrimitive] first.  An object
    made by [JSON.parse] has [Object.prototype] above it and only data
    properties of its own, none of them a function: [valueOf], its own or
    the inherited one, gives no primitive value; [toString] is the
    inherited one, which answers ["[object Object]"], unless the object has
    a property of that name of its own, and then the conversion throws a
    [TypeError]. *)
Definition ToNumber `{Builtins} (v : JsVal) : Completion float64 :=
  match v with
  | VUndefined => Normal NaN
  | VNull => Normal (S754_zero false)
  | VBool true => Normal (f64_of_Z 1)
  | VBool false => Normal (S754_zero false)
  | VNum x => Normal x
  | VStr s => Normal (StringToNumber s)
  | VObj _ props =>
      match props !! "toString" with
      | Some _ => Throw Axios.TypeError
      | None => Normal (StringToNumber "[object Object]")
      end
  end.

(** The property read [v.k] as an expression: a [TypeError] on [undefined]
    and [null]. *)
Definition GetV {St} (v : JsVal) (k : string) : JS St JsVal :=
  if ObjectCoercible v then ret (Get v k) else throw Axios.TypeError.

(** One call of axios with its two callbacks:
    [axios(request).then(on_then).catch(on_catch)]. *)
Record Call (St : Type) : Type := {
  request : Axios.Request;
  on_then : Axios.Response -> JS St unit;
  on_catch : Axios.Rejection -> JS St unit
}.
Arguments request {St} _.
Arguments on_then {St} _.
Arguments on_catch {St} _.

(** [p.then(f).catch(g)]: [g] receives the rejection of [p], and also
    what [f] throws. *)
Definition then_catch {St} (f : Axios.Response -> JS St unit)
    (g : Axios.Rejection -> JS St unit) (o : Axios.Outcome) : JS St unit :=
  match o with
  | Axios.Fulfilled r =>
      fun st =>
        match f r st with
        | (Normal u, st') => (Normal u, st')
        | (Throw e, st') => g e st'
        end
  | Axios.Rejected e => g e
  end.

(** The promise of call [c] settles with [o]: the callbacks run. *)
Definition settled {St} (c : Call St) (o : Axios.Outcome) : JS St unit :=
  then_catch (on_then c) (on_catch c) o.

(** The state after the promise of call [c] has settled with [o]. *)
Definition settle {St} (c : Call St) (o : Axios.Outcome) (st : St) : St :=
  snd (settled c o st).

(** ** Timers *)

(** [setInterval(callback, delay)]: the callback makes its calls of axios
    every [delay] milliseconds, the first time [delay] after the timer was
    set. *)
Record Timer (St : Type) : Type := {
  callback : St -> list (Call St);
  delay : Z
}.
Arguments callback {St} _.
Arguments delay {St} _.

(** What running a [mounted] hook leaves behind: the calls it made itself
    and the timers it set. *)
Record Mounted (St : Type) : Type := {
  calls : list (Call St);
  timers : list (Timer St)
}.
Arguments calls {St} _.
Arguments timers {St} _.

Definition fires {St} (t : Z) (tm : Timer St) : bool :=
  (0 <? t) && (t mod delay tm =? 0).

(** The requests a mounted component sends [t] milliseconds after the hook
    ran, on the nominal schedule of its timers, in state [st]. *)
Definition requests_at {St} (m : Mounted St) (t : Z) (st : St) : list Axios.Request :=
  (if t =? 0 then map request (calls m) else nil)
  ++ flat_map (fun tm => if fires t tm then map request (callback tm st) else nil)
       (timers m).

End Js.

Import Js.
#[local] Open Scope js_scope.

(* ===================================================================== *)
(** * The status/control panel *)
(* ===================================================================== *)

Module StatusPanel.

(** The component's data, [this] in the methods. *)
Record Vm : Type := {
  computer_control : JsVal;
  active_users : JsVal;
  filament_status_message : JsVal
}.

(** [data()] *)
Definition data : Vm :=
  {| computer_control := VBool true;
     active_users := VNum (S754_zero false);
     filament_status_message := VStr "" |}.

Definition set_computer_control (v : JsVal) (self : Vm) : Vm :=
  {| computer_control := v;
     active_users := active_users self;
     filament_status_message := filament_status_message self |}.

Definition set_active_users (v : JsVal) (self : Vm) : Vm :=
  {| computer_control := computer_control self;
     active_users := v;
     filament_status_message := filament_status_message self |}.

Definition set_filament_status_message (v : JsVal) (self : Vm) : Vm :=
  {| computer_control := computer_control self;
     active_users := active_users self;
     filament_status_message := v |}.

(** The call of axios in [filamentOn], with its two callbacks. *)
Definition filamentOn_call : Call Vm :=
  {| request := Axios.get "/filament-on" None;
     on_then := fun response =>
       assign (set_filament_status_message (Axios.data response));
     on_catch := fun error =>
       match Axios.response_of error with
       | None =>
           assign (set_filament_status_message
                     (VStr "Failed to communicate with server."))
       | Some error_response =>
           assign (set_filament_status_message (Axios.data error_response))
       end |}.

(** [methods.filamentOn] *)
Definition filamentOn (self : Vm) : list (Call Vm) := [ filamentOn_call ].

(** The call of axios in [filamentOff]. *)
Definition filamentOff_call : Call Vm :=
  {| request := Axios.get "/filament-off" None;
     on_then := fun response =>
       assign (set_filament_status_message (Axios.data response));
     on_catch := fun error =>
       match Axios.response_of error with
       | None =>
           assign (set_filament_status_message
                     (VStr "Failed to communicate with server."))
       | Some error_response =>
           assign (set_filament_status_message (Axios.data error_response))
       end |}.

(** [methods.filamentOff] *)
Definition filamentOff (self : Vm) : list (Call Vm) := [ filamentOff_call ].

(** The [methods] table of the component. *)
Definition methods : list (string * (Vm -> list (Call Vm))) :=
  [ ("filamentOn", filamentOn); ("filamentOff", filamentOff) ].

(** The call of axios in the function given to [setInterval]. *)
Definition poll_call : Call Vm :=
  {| request := Axios.get "/status" (Some 450);
     on_then := fun response =>
       v <- GetV (Axios.data response) "computer_control" ;;
       assign (set_computer_control v) ;;
       v <- GetV (Axios.data response) "filament_status_message" ;;
       assign (set_filament_status_message v) ;;
       v <- GetV (Axios.data response) "active_users" ;;
       assign (set_active_users v);
     on_catch := fun error =>
       match Axios.response_of error with
       | None =>
           assign (set_filament_status_message
                     (VStr "Failed to communicate with server."))
       | Some error_response =>
           assign (set_filament_status_message (Axios.data error_response))
       end |}.

(** The function given to [setInterval] in [mounted]. *)
Definition poll (self : Vm) : list (Call Vm) := [ poll_call ].

(** [mounted()] *)
Definition mounted : Mounted Vm :=
  {| calls := [];
     timers := [ {| callback := poll; delay := 500 |} ] |}.

End StatusPanel.

(* ===================================================================== *)
(** * The setup panel *)
(* ===================================================================== *)

Module SetupPanel.

(** The component's data. *)
Record Vm : Type := {
  max_virtual_knob_value : JsVal;
  current_max_dac_value : JsVal;
  error_message : JsVal;
  warning_message : JsVal
}.

(** [data()] *)
Definition data : Vm :=
  {| max_virtual_knob_value := VNum (S754_zero false);
     current_max_dac_value := VNum (S754_zero false);
     error_message := VStr "";
     warning_message := VStr "" |}.

(** What the callbacks of this component can write: the component's data
    and [window.location.href]. *)
Record Page : Type := {
  self : Vm;
  window_location_href : string
}.

Definition set_max_virtual_knob_value (v : JsVal) (page : Page) : Page :=
  {| self := {| max_virtual_knob_value := v;
                current_max_dac_value := current_max_dac_value (self page);
                error_message := error_message (self page);
                warning_message := warning_message (self page) |};
     window_location_href := window_location_href page |}.

Definition set_current_max_dac_value (v : JsVal) (page : Page) : Page :=
  {| self := {| max_virtual_knob_value := max_virtual_knob_value (self page);
                current_max_dac_value := v;
                error_message := error_message (self page);
                warning_message := warning_message (self page) |};
     window_location_href := window_location_href page |}.

Definition set_error_message (v : JsVal) (page : Page) : Page :=
  {| self := {| max_virtual_knob_value := max_virtual_knob_value (self page);
                current_max_dac_value := current_max_dac_value (self page);
                error_message := v;
                warning_message := warning_message (self page) |};
     window_location_href := window_location_href page |}.

Definition set_warning_message (v : JsVal) (page : Page) : Page :=
  {| self := {| max_virtual_knob_value := max_virtual_knob_value (self page);
                current_max_dac_value := current_max_dac_value (self page);
                error_message := error_message (self page);
                warning_message := v |};
     window_location_href := window_location_href page |}.

Definition set_window_location_href (u : string) (page : Page) : Page :=
  {| self := self page; window_location_href := u |}.

(** The text of the warning in the polling callback. *)
Definition warning_text : string :=
  "Warning: Someone else on the system changed the max virtual knob value setting while you were on this page.".

Section Component.
Context `{Builtins}.

(** The call of axios in [submitNewSettings], made in state [page]. The
    form data holds each value as given to [append]. *)
Definition submitNewSettings_call (page : Page) : Call Page :=
  let formData :=
    Axios.append "max_virtual_knob_value"
      (VNum (parseFloat (max_virtual_knob_value (self page))))
      Axios.new_FormData in
  {| request :=
       {| Axios.method := Axios.POST;
          Axios.url := "/setup";
          Axios.timeout := None;
          Axios.body := Some formData;
          Axios.headers := [ ("Content-Type", "multipart/form-data") ] |};
     on_then := fun response => assign (set_window_location_href "/");
     on_catch := fun error =>
       match Axios.response_of error with
       | None =>
           assign (set_error_message (VStr "Failed to communicate with server."))
       | Some error_response =>
           assign (set_error_message (Axios.data error_response))
       end |}.

(** [methods.submitNewSettings] *)
Definition submitNewSettings (page : Page) : list (Call Page) :=
  [ submitNewSettings_call page ].

Definition methods : list (string * (Page -> list (Call Page))) :=
  [ ("submitNewSettings", submitNewSettings) ].

(** The scale of the knob:
    [((max_dac_value / (Math.pow(2, dac_bits) - 1)) * 10.0).toPrecision(2)].
    [Math.pow] converts its exponent when it is called, the division
    converts its left operand after that; either conversion may throw. *)
Definition knob_value (max_dac_value dac_bits : JsVal) : Completion string :=
  match ToNumber dac_bits with
  | Throw error => Throw error
  | Normal exponent =>
      let power := Math_pow (f64_of_Z 2) exponent in
      match ToNumber max_dac_value with
      | Throw error => Throw error
      | Normal dividend =>
          Normal
            (Number_toPrecision
               (f64_mul
                  (f64_div dividend (f64_sub power (f64_of_Z 1)))
                  (f64_of_Z 10))
               2)
      end
  end.

(** The first call of axios in [mounted]: the load of the configuration. *)
Definition load_call : Call Page :=
  {| request := Axios.get "/status" (Some 1000);
     on_then := fun response =>
       max_dac_value <- GetV (Axios.data response) "max_dac_value" ;;
       dac_bits <- GetV (Axios.data response) "dac_bits" ;;
       knob <- lift (knob_value max_dac_value dac_bits) ;;
       assign (set_max_virtual_knob_value (VStr knob)) ;;
       max_dac_value <- GetV (Axios.data response) "max_dac_value" ;;
       assign (set_current_max_dac_value max_dac_value);
     on_catch := fun error =>
       match Axios.response_of error with
       | None =>
           assign (set_error_message (VStr "Failed to communicate with server."))
       | Some error_response =>
           assign (set_error_message (Axios.data error_response))
       end |}.

(** The call of axios in the function given to [setInterval]. *)
Definition poll_call : Call Page :=
  {| request := Axios.get "/status" (Some 450);
     on_then := fun response =>
       current <- read (fun page => current_max_dac_value (self page)) ;;
       max_dac_value <- GetV (Axios.data response) "max_dac_value" ;;
       if strict_not_equals current max_dac_value
       then assign (set_warning_message (VStr warning_text))
       else ret tt;
     on_catch := fun error =>
       match Axios.response_of error with
       | None =>
           assign (set_error_message (VStr "Failed to communicate with server."))
       | Some error_response =>
           assign (set_error_message (Axios.data error_response))
       end |}.

Definition poll (page : Page) : list (Call Page) := [ poll_call ].

(** [mounted()] *)
Definition mounted : Mounted Page :=
  {| calls := [ load_call ];
     timers := [ {| callback := poll; delay := 500 |} ] |}.

(** ** Runs of the component *)

(** The calls the component makes: the load, a poll, a submission. *)
Inductive Op : Type := Load | Poll | Submit.

(** The call behind an operation started in state [made_in]. *)
Definition call_of (op : Op) (made_in : Page) : Call Page :=
  match op with
  | Load => load_call
  | Poll => poll_call
  | Submit => submitNewSettings_call made_in
  end.

(** A promise of the component settles: the operation, the state in which
    its call was made, and how the promise settled. *)
Record Event : Type := {
  op : Op;
  made_in : Page;
  outcome : Axios.Outcome
}.

Definition step (page : Page) (ev : Event) : Page :=
  settle (call_of (op ev) (made_in ev)) (outcome ev) page.

Definition run (evs : list Event) (page : Page) : Page := fold_left step evs page.

End Component.

End SetupPanel.

(* ===================================================================== *)
(** * Sample inputs *)
(* ===================================================================== *)

(** One implementation of the built-ins, to run the handlers on sample
    inputs.  Text is read as the standard has it, [StringToNumber] for the
    whole of a string and [parseFloat] for the longest numeric prefix, both
    rounded to the nearest Number; [parseFloat] of a Number is that Number
    (of [-0], [+0]), and of an object the NaN of ["[object Object]"].
    [Math.pow] of 2 to an integral exponent is the power of two; powers
    the standard leaves to an approximation are not computed and answer
    NaN. *)
Module Sample.

(** Text is UTF-8: the bytes of a string. *)
Definition bytes (s : string) : list Z :=
  map (fun c => Z.of_N (N_of_ascii c)) (list_ascii_of_string s).

(** The rest of [l] after one white space or line terminator of
    JavaScript, if [l] starts with one. *)
Definition after_white (l : list Z) : option (list Z) :=
  match l with
  | 9 :: r | 10 :: r | 11 :: r | 12 :: r | 13 :: r | 32 :: r => Some r
  | 194 :: 160 :: r => Some r
  | 225 :: 154 :: 128 :: r => Some r
  | 226 :: 128 :: c :: r =>
      if ((128 <=? c) && (c <=? 138)) || (c =? 168) || (c =? 169) || (c =? 175)
      then Some r else None
  | 226 :: 129 :: 159 :: r => Some r
  | 227 :: 128 :: 128 :: r => Some r
  | 239 :: 187 :: 191 :: r => Some r
  | _ => None
  end.

Fixpoint skip_white (fuel : nat) (l : list Z) : list Z :=
  match fuel with
  | O => l
  | S fuel' =>
      match after_white l with
      | Some r => skip_white fuel' r
      | None => l
      end
  end.

Definition trim_start (l : list Z) : list Z := skip_white (length l) l.

(** The value of the digit [c] in base [base], if it is one. *)
Definition digit_value (base c : Z) : option Z :=
  let d :=
    if (48 <=? c) && (c <=? 57) then c - 48
    else if (97 <=? c) && (c <=? 102) then c - 87
    else if (65 <=? c) && (c <=? 70) then c - 55
    else base in
  if d <? base then Some d else None.

(** The digits [l] starts with: their value after [acc], how many they
    are after [count], and what follows them. *)
Fixpoint digits (base : Z) (l : list Z) (acc count : Z) : Z * Z * list Z :=
  match l with
  | c :: r =>
      match digit_value base c with
      | Some d => digits base r (base * acc + d) (count + 1)
      | None => (acc, count, l)
      end
  | [] => (acc, count, l)
  end.

(** The Number nearest to [m * 10^k], ties to even, with the sign
    [negative]. *)
Definition round_decimal (negative : bool) (m k : Z) : float64 :=
  if m =? 0 then S754_zero negative
  else if 0 <=? k then
    binary_normalize f64_prec f64_emax (cond_Zopp negative (m * 10 ^ k)) 0 false
  else
    let '(q, e, l) := SFdiv_core_binary f64_prec f64_emax m 0 (10 ^ (- k)) 0 in
    binary_round_aux f64_prec f64_emax negative q e l.

(** The exponent part [l] starts with, if it is a whole one. *)
Definition exponent_part (l : list Z) : Z * list Z :=
  match l with
  | 101 :: r | 69 :: r =>
      let '(negative, r') :=
        match r with
        | 43 :: r' => (false, r')
        | 45 :: r' => (true, r')
        | _ => (false, r)
        end in
      let '(e, count, rest) := digits 10 r' 0 0 in
      if count =? 0 then (0, l) else (cond_Zopp negative e, rest)
  | _ => (0, l)
  end.

(** The longest [StrDecimalLiteral] [l] starts with: its Number and what
    follows it. *)
Definition decimal_literal (l : list Z) : option (float64 * list Z) :=
  let '(negative, l1) :=
    match l with
    | 43 :: r => (false, r)
    | 45 :: r => (true, r)
    | _ => (false, l)
    end in
  match l1 with
  | 73 :: 110 :: 102 :: 105 :: 110 :: 105 :: 116 :: 121 :: r =>
      Some (S754_infinity negative, r)
  | _ =>
      let '(whole, whole_count, l2) := digits 10 l1 0 0 in
      let '(m, fraction_count, l3) :=
        match l2 with
        | 46 :: r => digits 10 r whole 0
        | _ => (whole, 0, l2)
        end in
      if (whole_count =? 0) && (fraction_count =? 0) then None
      else
        let '(e, l4) := exponent_part l3 in
        Some (round_decimal negative m (e - fraction_count), l4)
  end.

(** The literals in base 16, 8 and 2. *)
Definition non_decimal_literal (l : list Z) : option (float64 * list Z) :=
  let base :=
    match l with
    | 48 :: 120 :: _ | 48 :: 88 :: _ => 16
    | 48 :: 111 :: _ | 48 :: 79 :: _ => 8
    | 48 :: 98 :: _ | 48 :: 66 :: _ => 2
    | _ => 0
    end in
  if base =? 0 then None
  else
    let '(m, count, rest) := digits base (skipn 2 l) 0 0 in
    if count =? 0 then None else Some (round_decimal false m 0, rest).

(** [StringToNumber]: the whole text, white space apart, is a numeric
    literal, or it is empty, or the Number is NaN. *)
Definition string_to_number (s : string) : float64 :=
  let l := trim_start (bytes s) in
  match l with
  | [] => S754_zero false
  | _ =>
      let literal :=
        match non_decimal_literal l with
        | Some found => Some found
        | None => decimal_literal l
        end in
      match literal with
      | Some (x, rest) => match trim_start rest with [] => x | _ => NaN end
      | None => NaN
      end
  end.

(** [parseFloat] of a text: the longest decimal literal after the leading
    white space. *)
Definition parse_float_text (s : string) : float64 :=
  match decimal_literal (trim_start (bytes s)) with
  | Some (x, _) => x
  | None => NaN
  end.

Definition integral (x : float64) : option Z :=
  match x with
  | S754_zero _ => Some 0
  | S754_finite s m e =>
      if 0 <=? e then Some (cond_Zopp s (Zpos m * 2 ^ e))
      else if Zpos m mod 2 ^ (- e) =? 0 then Some (cond_Zopp s (Zpos m / 2 ^ (- e)))
      else None
  | _ => None
  end.

Definition pow (base exponent : float64) : float64 :=
  match exponent with
  | S754_nan => NaN
  | S754_zero _ => f64_of_Z 1
  | _ =>
      if f64_eqb base (f64_of_Z 2) then
        match exponent with
        | S754_infinity false => S754_infinity false
        | S754_infinity true => S754_zero false
        | _ =>
            match integral exponent with
            | Some n => SFldexp f64_prec f64_emax (f64_of_Z 1) n
            | None => NaN
            end
        end
      else NaN
  end.

Definition builtins : Builtins :=
  {| Math_pow := pow;
     parseFloat := fun v =>
       match v with
       | VNum (S754_zero _) => S754_zero false
       | VNum x => x
       | VStr s => parse_float_text s
       | _ => NaN
       end;
     StringToNumber := string_to_number |}.

(** A body of [/status] as the server of the controller sends it, for a
    12-bit converter at full scale. *)
Definition status_body : JsVal :=
  VObj 1
    (<["max_dac_value" := VNum (f64_of_Z 4095)]>
       (<["dac_bits" := VNum (f64_of_Z 12)]>
          (<["computer_control" := VBool false]>
             (<["filament_status_message" := VStr "Filament is on."]>
                (<["active_users" := VNum (f64_of_Z 2)]> ∅))))).

Definition status_response : Axios.Response := {| Axios.data := status_body |}.

(** The same with the converter at half scale. *)
Definition changed_body : JsVal :=
  VObj 2
    (<["max_dac_value" := VNum (f64_of_Z 2048)]>
       (<["dac_bits" := VNum (f64_of_Z 12)]> ∅)).

Definition changed_response : Axios.Response := {| Axios.data := changed_body |}.

(** The setup page as the browser opens it. *)
Definition setup_page : SetupPanel.Page :=
  {| SetupPanel.self := SetupPanel.data;
     SetupPanel.window_location_href := "/setup" |}.

(** The setup page once [status_response] has been loaded into it. *)
Definition loaded_page : SetupPanel.Page :=
  {| SetupPanel.self :=
       {| SetupPanel.max_virtual_knob_value := VStr "10";
          SetupPanel.current_max_dac_value := VNum (f64_of_Z 4095);
          SetupPanel.error_message := VStr "";
          SetupPanel.warning_message := VStr "" |};
     SetupPanel.window_location_href := "/setup" |}.

(** The same page after a poll has seen another [max_dac_value]. *)
Definition warned_page : SetupPanel.Page :=
  {| SetupPanel.self :=
       {| SetupPanel.max_virtual_knob_value := VStr "10";
          SetupPanel.current_max_dac_value := VNum (f64_of_Z 4095);
          SetupPanel.error_message := VStr "";
          SetupPanel.warning_message := VStr SetupPanel.warning_text |};
     SetupPanel.window_location_href := "/setup" |}.

(** A rejection that carries the server's answer. *)
Definition refused : Axios.Rejection :=
  Axios.AxiosError (Some {| Axios.data := VStr "Invalid max virtual knob value." |}).

(** After the load: a poll that sees the change, a submission the server
    refuses, a poll that times out, a poll that sees the loaded value. *)
Definition later_events : list SetupPanel.Event :=
  [ {| SetupPanel.op := SetupPanel.Poll; SetupPanel.made_in := loaded_page;
       SetupPanel.outcome := Axios.Fulfilled changed_response |};
    {| SetupPanel.op := SetupPanel.Submit; SetupPanel.made_in := warned_page;
       SetupPanel.outcome := Axios.Rejected refused |};
    {| SetupPanel.op := SetupPanel.Poll; SetupPanel.made_in := warned_page;
       SetupPanel.outcome := Axios.Rejected (Axios.AxiosError None) |};
    {| SetupPanel.op := SetupPanel.Poll; SetupPanel.made_in := warned_page;
       SetupPanel.outcome := Axios.Fulfilled status_response |} ].

(** A success without a body. *)
Definition null_response : Axios.Response := {| Axios.data := VNull |}.

(** A success whose body is a text. *)
Definition text_response : Axios.Response := {| Axios.data := VStr "OK" |}.

(** A success whose body is an object without properties. *)
Definition bare_response : Axios.Response := {| Axios.data := VObj 3 ∅ |}.

(** A body of [/status] that lacks [dac_bits]. *)
Definition bitless_response : Axios.Response :=
  {| Axios.data := VObj 4 (<["max_dac_value" := VNum (f64_of_Z 4095)]> ∅) |}.

(** The loaded page with the answer of a refused submission on it. *)
Definition refused_page : SetupPanel.Page :=
  {| SetupPanel.self :=
       {| SetupPanel.max_virtual_knob_value := VStr "10";
          SetupPanel.current_max_dac_value := VNum (f64_of_Z 4095);
          SetupPanel.error_message := VStr "Invalid max virtual knob value.";
          SetupPanel.warning_message := VStr "" |};
     SetupPanel.window_location_href := "/setup" |}.

(** A body of [/status] whose [max_dac_value] is an object with a
    property [toString] of its own: [{"toString": 1}]. *)
Definition hostile_response : Axios.Response :=
  {| Axios.data :=
       VObj 5
         (<["max_dac_value" := VObj 6 (<["toString" := VNum (f64_of_Z 1)]> ∅)]>
            (<["dac_bits" := VNum (f64_of_Z 12)]> ∅)) |}.


End Sample.


(** The message the [catch] callbacks of both components compute from the
    reason of the rejection. *)
Definition failure_message (error : Axios.Rejection) : JsVal :=
  match Axios.response_of error with
  | None => VStr "Failed to communicate with server."
  | Some error_response => Axios.data error_response
  end.

#[local] Ltac run_js :=
  unfold settle, settled, then_catch, bind, assign, read, ret; cbn.

(* ===================================================================== *)
(** * Properties *)
(* ===================================================================== *)

(** ** Numbers as text *)

(** [toPrecision] on values whose text is known. *)
Example toPrecision_ten : Number_toPrecision (f64_of_Z 10) 2 = "10".
Proof. reflexivity. Qed.

Example toPrecision_half_scale :
  Number_toPrecision
    (f64_mul (f64_div (f64_of_Z 2048) (f64_of_Z 4095)) (f64_of_Z 10)) 2 = "5.0".
Proof. vm_compute. reflexivity. Qed.

Example toPrecision_rounds_up :
  Number_toPrecision (f64_div (f64_of_Z 996) (f64_of_Z 100)) 2 = "10".
Proof. vm_compute. reflexivity. Qed.

Example toPrecision_small :
  Number_toPrecision (f64_div (f64_of_Z 123) (f64_of_Z 1000000)) 2 = "0.00012".
Proof. vm_compute. reflexivity. Qed.

Example toPrecision_exponent : Number_toPrecision (f64_of_Z 1234) 2 = "1.2e+3".
Proof. vm_compute. reflexivity. Qed.

Example toPrecision_zero : Number_toPrecision (S754_zero true) 2 = "0.0".
Proof. reflexivity. Qed.

Example toPrecision_not_finite :
  Number_toPrecision (f64_div (f64_of_Z 4095) (S754_zero false)) 2 = "Infinity"
  /\ Number_toPrecision NaN 2 = "NaN".
Proof. split; reflexivity. Qed.

(** The sample reading of text, on texts whose Number is known. *)
Example string_to_number_samples :
  map Sample.string_to_number
    [ "4095"; " 12 "; ""; "0x1F"; "-0"; "1e"; "12px"; "[object Object]" ]
  = [ f64_of_Z 4095; f64_of_Z 12; S754_zero false; f64_of_Z 31; S754_zero true;
      NaN; NaN; NaN ].
Proof. vm_compute. reflexivity. Qed.

Example string_to_number_rounds :
  Sample.string_to_number "0.1" = S754_finite false 7205759403792794 (-56)
  /\ Sample.string_to_number "9007199254740993" = f64_of_Z (2 ^ 53)
  /\ Sample.string_to_number "1e23" = S754_finite false 5960464477539062 24
  /\ Sample.string_to_number "1.7976931348623159e308" = S754_infinity false.
Proof. repeat split; vm_compute; reflexivity. Qed.

Example parse_float_samples :
  map Sample.parse_float_text [ "10"; "5.0"; "12px"; " 1e"; "abc"; "" ]
  = [ f64_of_Z 10; f64_of_Z 5; f64_of_Z 12; f64_of_Z 1; NaN; NaN ].
Proof. vm_compute. reflexivity. Qed.

(** [ToNumber] of objects: NaN, or a [TypeError] when the object has a
    [toString] of its own. *)
Example ToNumber_of_objects :
  ToNumber (H := Sample.builtins) (VObj 0 ∅) = Normal NaN
  /\ ToNumber (H := Sample.builtins)
       (VObj 6 (<["toString" := VNum (f64_of_Z 1)]> ∅))
     = Throw Axios.TypeError.
Proof. split; vm_compute; reflexivity. Qed.

(** ** Strict equality *)

(** Numbers that [===] holds equal are the same Number, or two zeros. *)
Lemma f64_eqb_true (x y : float64) :
  f64_eqb x y = true ->
  x = y \/ exists s1 s2, x = S754_zero s1 /\ y = S754_zero s2.
Proof.
  unfold f64_eqb, SFeqb.
  destruct x as [s1 | s1 | | s1 m1 e1], y as [s2 | s2 | | s2 m2 e2]; cbn;
    try discriminate; try (destruct s1; discriminate);
    try (destruct s2; discriminate).
  - intros _. right. eauto.
  - destruct s1, s2; try discriminate; auto.
  - destruct s1, s2; try discriminate; intros Hcmp;
      destruct (e1 ?= e2) eqn:He; try discriminate;
      destruct (Pos.compare_cont Eq m1 m2) eqn:Hm; try discriminate;
      apply Z.compare_eq in He; apply Pos.compare_eq in Hm; subst; auto.
Qed.

(** What [a === b] says of the two values: they are the same value, two
    zeros, or one object seen twice. *)
Lemma strict_equals_true (a b : JsVal) :
  strict_equals a b = true ->
  a = b
  \/ (exists s1 s2, a = VNum (S754_zero s1) /\ b = VNum (S754_zero s2))
  \/ (exists r props1 props2, a = VObj r props1 /\ b = VObj r props2).
Proof.
  destruct a as [| | x | x | x | r1 p1], b as [| | y | y | y | r2 p2]; cbn;
    try discriminate; auto.
  - intros Heq. apply Bool.eqb_prop in Heq. subst. auto.
  - intros Heq. destruct (f64_eqb_true x y Heq) as [-> | (s1 & s2 & -> & ->)].
    + left. reflexivity.
    + right; left. exists s1, s2. split; reflexivity.
  - intros Heq. apply String.eqb_eq in Heq. subst. auto.
  - intros Heq. apply Nat.eqb_eq in Heq. subst. right; right.
    exists r2, p1, p2. split; reflexivity.
Qed.

(** A value is strictly equal to itself, NaN apart. *)
Lemma strict_equals_refl (a : JsVal) :
  a <> VNum NaN -> strict_equals a a = true.
Proof.
  destruct a as [| | x | x | x | r p]; cbn; intros Hnan; auto.
  - apply Bool.eqb_reflx.
  - unfold f64_eqb, SFeqb.
    destruct x as [s | s | | s m e]; cbn.
    + reflexivity.
    + destruct s; reflexivity.
    + contradiction Hnan. reflexivity.
    + assert ((e ?= e) = Eq) as -> by apply Z.compare_refl.
      assert (Pos.compare_cont Eq m m = Eq) as -> by apply Pos.compare_refl.
      destruct s; reflexivity.
  - apply String.eqb_refl.
  - apply Nat.eqb_refl.
Qed.

(** ** Reading properties *)

Lemma GetV_coercible {St} (v : JsVal) (k : string) (st : St) :
  ObjectCoercible v = true -> GetV v k st = (Normal (Get v k), st).
Proof. intros Hv. unfold GetV. rewrite Hv. reflexivity. Qed.

Lemma GetV_throws {St} (v : JsVal) (k : string) (st : St) :
  ObjectCoercible v = false -> GetV v k st = (Throw Axios.TypeError, st).
Proof. intros Hv. unfold GetV. rewrite Hv. reflexivity. Qed.

Lemma sample_body_coercible : ObjectCoercible Sample.status_body = true.
Proof. reflexivity. Qed.

(** ** The status/control panel *)

Section StatusPanelFacts.
Import StatusPanel.

(** What the [then] callback of the poll does with a body that has
    properties. *)
Lemma status_poll_then (response : Axios.Response) (self : Vm) :
  ObjectCoercible (Axios.data response) = true ->
  settled poll_call (Axios.Fulfilled response) self =
    (Normal tt,
     {| computer_control := Get (Axios.data response) "computer_control";
        active_users := Get (Axios.data response) "active_users";
        filament_status_message :=
          Get (Axios.data response) "filament_status_message" |}).
Proof.
  intros Hbody. run_js. unfold bind.
  repeat (rewrite (GetV_coercible _ _ _ Hbody); cbn).
  reflexivity.
Qed.

(** A body without properties ([null], or none at all) makes the callback
    throw before it assigns anything; the [catch] callback then reports a
    failure. *)
Lemma status_poll_then_throws (response : Axios.Response) (self : Vm) :
  ObjectCoercible (Axios.data response) = false ->
  settled poll_call (Axios.Fulfilled response) self =
    (Normal tt,
     set_filament_status_message (VStr "Failed to communicate with server.") self).
Proof.
  intros Hbody. run_js. unfold bind.
  rewrite (GetV_throws _ _ _ Hbody). reflexivity.
Qed.

Lemma status_catch (c : Call Vm) (error : Axios.Rejection) (self : Vm) :
  c = filamentOn_call \/ c = filamentOff_call \/ c = poll_call ->
  settled c (Axios.Rejected error) self =
    (Normal tt, set_filament_status_message (failure_message error) self).
Proof.
  intros [-> | [-> | ->]]; unfold failure_message; run_js;
    destruct (Axios.response_of error); reflexivity.
Qed.

Lemma status_schedule (t : Z) (self : Vm) :
  requests_at mounted t self =
    if (0 <? t) && (t mod 500 =? 0) then [ Axios.get "/status" (Some 450) ] else [].
Proof.
  unfold requests_at, fires. cbn.
  destruct (t =? 0); destruct ((0 <? t) && (t mod 500 =? 0)); reflexivity.
Qed.



(** C6. The component has two methods, [filamentOn] and [filamentOff];
    each makes one call, [GET /filament-on] and [GET /filament-off]; when it
    succeeds, [filament_status_message] is the body of the response and the
    other two fields are as they were. *)
Theorem filament_actions_set_status_message
    (response : Axios.Response) (self : Vm) :
  map fst methods = [ "filamentOn"; "filamentOff" ]
  /\ map (fun m => map request (snd m self)) methods =
       [ [ {| Axios.method := Axios.GET; Axios.url := "/filament-on";
              Axios.timeout := None; Axios.body := None; Axios.headers := [] |} ];
         [ {| Axios.method := Axios.GET; Axios.url := "/filament-off";
              Axios.timeout := None; Axios.body := None; Axios.headers := [] |} ] ]
  /\ map (fun m => map (fun c => settled c (Axios.Fulfilled response) self)
                     (snd m self)) methods =
       let after :=
         (Normal tt,
          {| computer_control := computer_control self;
             active_users := active_users self;
             filament_status_message := Axios.data response |}) in
       [ [ after ]; [ after ] ].
Proof. repeat split. Qed.

End StatusPanelFacts.

(** ** The setup panel *)

Section SetupPanelFacts.
Import SetupPanel.
Context `{Builtins}.

(** A conversion to a Number that throws, throws a [TypeError]. *)
Lemma ToNumber_throws (v : JsVal) (error : Axios.Rejection) :
  ToNumber v = Throw error -> error = Axios.TypeError.
Proof.
  destruct v as [| | [|] | x | s | r props]; cbn; try discriminate.
  destruct (props !! "toString"); [ | discriminate ].
  intros [= <-]. reflexivity.
Qed.

(** A value that is no object converts. *)
Lemma ToNumber_primitive (v : JsVal) :
  (forall r props, v <> VObj r props) -> exists x, ToNumber v = Normal x.
Proof.
  intros Hplain.
  destruct v as [| | [|] | x | s | r props]; cbn; eauto.
  now contradiction (Hplain r props).
Qed.

(** The knob value when both conversions go through. *)
Lemma knob_value_converted (max_dac_value dac_bits : JsVal) (dividend exponent : float64) :
  ToNumber max_dac_value = Normal dividend ->
  ToNumber dac_bits = Normal exponent ->
  knob_value max_dac_value dac_bits =
    Normal
      (Number_toPrecision
         (f64_mul
            (f64_div dividend
               (f64_sub (Math_pow (f64_of_Z 2) exponent) (f64_of_Z 1)))
            (f64_of_Z 10))
         2).
Proof. intros Hvalue Hbits. unfold knob_value. now rewrite Hbits, Hvalue. Qed.

(** The knob value is a text, or the computation throws a [TypeError]. *)
Lemma knob_value_cases (max_dac_value dac_bits : JsVal) :
  (exists text, knob_value max_dac_value dac_bits = Normal text)
  \/ knob_value max_dac_value dac_bits = Throw Axios.TypeError.
Proof.
  unfold knob_value.
  destruct (ToNumber dac_bits) as [exponent | error] eqn:Hbits.
  - destruct (ToNumber max_dac_value) as [dividend | error] eqn:Hvalue.
    + left. eauto.
    + right. now rewrite (ToNumber_throws _ _ Hvalue).
  - right. now rewrite (ToNumber_throws _ _ Hbits).
Qed.

(** What the [then] callback of the load does with a body that has
    properties: when the knob value is computed both fields are assigned,
    and when the computation throws neither is and the [catch] callback
    reports a failure. *)
Lemma setup_load_then (response : Axios.Response) (page : Page) :
  ObjectCoercible (Axios.data response) = true ->
  settled load_call (Axios.Fulfilled response) page =
    (Normal tt,
     match knob_value (Get (Axios.data response) "max_dac_value")
             (Get (Axios.data response) "dac_bits") with
     | Normal knob =>
         {| self :=
              {| max_virtual_knob_value := VStr knob;
                 current_max_dac_value := Get (Axios.data response) "max_dac_value";
                 error_message := error_message (self page);
                 warning_message := warning_message (self page) |};
            window_location_href := window_location_href page |}
     | Throw error => set_error_message (failure_message error) page
     end).
Proof.
  intros Hbody. run_js. unfold bind, lift.
  repeat (rewrite (GetV_coercible _ _ _ Hbody); cbn).
  destruct (knob_value _ _) as [knob | error]; cbn.
  - rewrite (GetV_coercible _ _ _ Hbody). reflexivity.
  - unfold failure_message. destruct (Axios.response_of error); reflexivity.
Qed.

(** The same when both conversions go through. *)
Lemma setup_load_then_converted (response : Axios.Response) (page : Page)
    (dividend exponent : float64) :
  ObjectCoercible (Axios.data response) = true ->
  ToNumber (Get (Axios.data response) "max_dac_value") = Normal dividend ->
  ToNumber (Get (Axios.data response) "dac_bits") = Normal exponent ->
  settled load_call (Axios.Fulfilled response) page =
    (Normal tt,
     {| self :=
          {| max_virtual_knob_value :=
               VStr (Number_toPrecision
                       (f64_mul
                          (f64_div dividend
                             (f64_sub (Math_pow (f64_of_Z 2) exponent) (f64_of_Z 1)))
                          (f64_of_Z 10))
                       2);
             current_max_dac_value := Get (Axios.data response) "max_dac_value";
             error_message := error_message (self page);
             warning_message := warning_message (self page) |};
        window_location_href := window_location_href page |}).
Proof.
  intros Hbody Hvalue Hbits. rewrite setup_load_then by assumption.
  now rewrite (knob_value_converted _ _ _ _ Hvalue Hbits).
Qed.

Lemma setup_load_then_throws (response : Axios.Response) (page : Page) :
  ObjectCoercible (Axios.data response) = false ->
  settled load_call (Axios.Fulfilled response) page =
    (Normal tt, set_error_message (VStr "Failed to communicate with server.") page).
Proof.
  intros Hbody. run_js. unfold bind.
  rewrite (GetV_throws _ _ _ Hbody). reflexivity.
Qed.

(** What the [then] callback of the poll does with a body that has
    properties. *)
Lemma setup_poll_then (response : Axios.Response) (page : Page) :
  ObjectCoercible (Axios.data response) = true ->
  settled poll_call (Axios.Fulfilled response) page =
    (Normal tt,
     if strict_not_equals (current_max_dac_value (self page))
          (Get (Axios.data response) "max_dac_value")
     then set_warning_message (VStr warning_text) page
     else page).
Proof.
  intros Hbody. run_js. unfold bind.
  rewrite (GetV_coercible _ _ _ Hbody); cbn.
  destruct (strict_not_equals _ _); reflexivity.
Qed.

Lemma setup_poll_then_throws (response : Axios.Response) (page : Page) :
  ObjectCoercible (Axios.data response) = false ->
  settled poll_call (Axios.Fulfilled response) page =
    (Normal tt, set_error_message (VStr "Failed to communicate with server.") page).
Proof.
  intros Hbody. run_js. unfold bind.
  rewrite (GetV_throws _ _ _ Hbody). reflexivity.
Qed.

Lemma setup_submit_then (made_in : Page) (response : Axios.Response) (page : Page) :
  settled (submitNewSettings_call made_in) (Axios.Fulfilled response) page =
    (Normal tt, set_window_location_href "/" page).
Proof. reflexivity. Qed.

Lemma setup_catch (o : Op) (made_in : Page) (error : Axios.Rejection) (page : Page) :
  settled (call_of o made_in) (Axios.Rejected error) page =
    (Normal tt, set_error_message (failure_message error) page).
Proof.
  destruct o; unfold failure_message; run_js;
    destruct (Axios.response_of error); reflexivity.
Qed.

Lemma setup_schedule (t : Z) (page : Page) :
  requests_at mounted t page =
    if t =? 0 then [ Axios.get "/status" (Some 1000) ]
    else if (0 <? t) && (t mod 500 =? 0) then [ Axios.get "/status" (Some 450) ]
    else [].
Proof.
  unfold requests_at, fires. cbn.
  destruct (t =? 0) eqn:Ht.
  - apply Z.eqb_eq in Ht. subst t. reflexivity.
  - destruct ((0 <? t) && (t mod 500 =? 0)); reflexivity.
Qed.

(** Every way an event can go, by the page it leaves. *)
Lemma step_cases (page : Page) (ev : Event) :
  step page ev = page
  \/ step page ev = set_error_message (failure_message
                      match outcome ev with
                      | Axios.Rejected error => error
                      | Axios.Fulfilled _ => Axios.TypeError
                      end) page
  \/ (op ev = Poll /\ step page ev = set_warning_message (VStr warning_text) page)
  \/ (op ev = Submit /\ step page ev = set_window_location_href "/" page)
  \/ (op ev = Load /\ exists knob current,
        step page ev =
          set_current_max_dac_value current
            (set_max_virtual_knob_value (VStr knob) page)).
Proof.
  destruct ev as [o issued [response | error]]; unfold step, settle; cbn [op made_in outcome].
  - destruct (ObjectCoercible (Axios.data response)) eqn:Hbody; destruct o; cbn [call_of].
    + rewrite setup_load_then by assumption. cbn [snd].
      destruct (knob_value_cases (Get (Axios.data response) "max_dac_value")
                  (Get (Axios.data response) "dac_bits")) as [[knob ->] | ->].
      * do 4 right. split; [ reflexivity | ]. eexists _, _. reflexivity.
      * right; left. reflexivity.
    + rewrite setup_poll_then by assumption. cbn [snd].
      destruct (strict_not_equals _ _); [ right; right; left | left ]; auto.
    + rewrite setup_submit_then. right; right; right; left. auto.
    + rewrite setup_load_then_throws by assumption. right; left. reflexivity.
    + rewrite setup_poll_then_throws by assumption. right; left. reflexivity.
    + rewrite setup_submit_then. right; right; right; left. auto.
  - rewrite setup_catch. right; left. reflexivity.
Qed.

End SetupPanelFacts.

Section SetupPanelRuns.
Import SetupPanel.
Context `{Builtins}.

Lemma run_cons (ev : Event) (evs : list Event) (page : Page) :
  run (ev :: evs) page = run evs (step page ev).
Proof. reflexivity. Qed.

(** An event leaves the warning as it was or sets it to the fixed text. *)
Lemma step_warning_message (page : Page) (ev : Event) :
  warning_message (self (step page ev)) = warning_message (self page)
  \/ warning_message (self (step page ev)) = VStr warning_text.
Proof.
  destruct (step_cases page ev)
    as [-> | [-> | [[_ ->] | [[_ ->] | [_ (knob & current & ->)]]]]]; cbn; auto.
Qed.

(** An event that sets the warning sets the text, so a warning that shows
    the text keeps it. *)
Lemma step_keeps_warning (page : Page) (ev : Event) :
  warning_message (self page) = VStr warning_text ->
  warning_message (self (step page ev)) = VStr warning_text.
Proof.
  intros Hset. destruct (step_warning_message page ev) as [-> | ->]; auto.
Qed.

Lemma run_keeps_warning (evs : list Event) (page : Page) :
  warning_message (self page) = VStr warning_text ->
  warning_message (self (run evs page)) = VStr warning_text.
Proof.
  revert page. induction evs as [| ev evs IH]; intros page Hset.
  - exact Hset.
  - rewrite run_cons. apply IH. now apply step_keeps_warning.
Qed.

Lemma run_warning_values (evs : list Event) (page : Page) :
  warning_message (self page) = VStr "" \/ warning_message (self page) = VStr warning_text ->
  warning_message (self (run evs page)) = VStr ""
  \/ warning_message (self (run evs page)) = VStr warning_text.
Proof.
  revert page. induction evs as [| ev evs IH]; intros page Hpage.
  - exact Hpage.
  - rewrite run_cons. apply IH. destruct (step_warning_message page ev) as [-> | ->]; auto.
Qed.

(** Only the load assigns [current_max_dac_value]. *)
Lemma step_current_max_dac_value (page : Page) (ev : Event) :
  op ev <> Load ->
  current_max_dac_value (self (step page ev)) = current_max_dac_value (self page).
Proof.
  intros Hop.
  destruct (step_cases page ev)
    as [-> | [-> | [[_ ->] | [[_ ->] | [Hload _]]]]]; try reflexivity.
  contradiction.
Qed.

Lemma run_current_max_dac_value (evs : list Event) (page : Page) :
  Forall (fun ev => op ev <> Load) evs ->
  current_max_dac_value (self (run evs page)) = current_max_dac_value (self page).
Proof.
  revert page. induction evs as [| ev evs IH]; intros page Hevs.
  - reflexivity.
  - inversion Hevs as [| ? ? Hev Hrest]; subst.
    rewrite run_cons, IH by assumption. now apply step_current_max_dac_value.
Qed.




(** C9. From the initial data, after any events, [warning_message] is the
    empty string or the fixed warning text; and once it is the text, it is
    the text after any further events, whatever operation they belong to
    and however they settle. *)
Theorem warning_message_latches :
  (forall (evs : list Event) (href : string),
      let w := warning_message
                 (self (run evs {| self := data; window_location_href := href |})) in
      w = VStr "" \/ w = VStr warning_text)
  /\ (forall (evs : list Event) (page : Page),
      warning_message (self page) = VStr warning_text ->
      warning_message (self (run evs page)) = VStr warning_text).
Proof.
  split.
  - intros evs href. apply run_warning_values. left. reflexivity.
  - exact run_keeps_warning.
Qed.

(** C10. No event other than the load changes [current_max_dac_value],
    and a failed load does not either.  So, whatever events of the other
    operations have settled, a poll compares its own [max_dac_value] with
    the value stored before them, not with one a poll has read; and after a
    load that succeeded, with a body that has properties and whose
    [max_dac_value] and [dac_bits] convert to Numbers, that value is the
    [max_dac_value] of the load. *)
Theorem current_max_dac_value_is_the_loaded_one
    (response : Axios.Response) (evs : list Event) (page : Page)
    (dividend exponent : float64)
    (Hbody : ObjectCoercible (Axios.data response) = true)
    (Hvalue : ToNumber (Get (Axios.data response) "max_dac_value") = Normal dividend)
    (Hbits : ToNumber (Get (Axios.data response) "dac_bits") = Normal exponent)
    (Hevs : Forall (fun ev => op ev <> Load) evs) :
  (forall ev p, op ev <> Load ->
      current_max_dac_value (self (step p ev)) = current_max_dac_value (self p))
  /\ (forall error p,
      current_max_dac_value (self (settle load_call (Axios.Rejected error) p))
      = current_max_dac_value (self p))
  /\ (forall polled, ObjectCoercible (Axios.data polled) = true ->
      settle poll_call (Axios.Fulfilled polled) (run evs page) =
        if strict_not_equals (current_max_dac_value (self page))
             (Get (Axios.data polled) "max_dac_value")
        then set_warning_message (VStr warning_text) (run evs page)
        else run evs page)
  /\ current_max_dac_value
       (self (run evs (settle load_call (Axios.Fulfilled response) page)))
     = Get (Axios.data response) "max_dac_value"
  /\ (forall polled, ObjectCoercible (Axios.data polled) = true ->
      let loaded := run evs (settle load_call (Axios.Fulfilled response) page) in
      settle poll_call (Axios.Fulfilled polled) loaded =
        if strict_not_equals (Get (Axios.data response) "max_dac_value")
             (Get (Axios.data polled) "max_dac_value")
        then set_warning_message (VStr warning_text) loaded
        else loaded).
Proof.
  assert (current_max_dac_value
            (self (run evs (settle load_call (Axios.Fulfilled response) page)))
          = Get (Axios.data response) "max_dac_value") as Hloaded.
  { rewrite run_current_max_dac_value by assumption.
    unfold settle.
    now rewrite (setup_load_then_converted _ _ _ _ Hbody Hvalue Hbits). }
  split; [ | split; [ | split; [ | split ] ] ].
  - intros ev p Hop. now apply step_current_max_dac_value.
  - intros error p. unfold settle.
    now rewrite (setup_catch Load p error p).
  - intros polled Hpolled. unfold settle.
    rewrite setup_poll_then by assumption. cbn [snd].
    now rewrite run_current_max_dac_value by assumption.
  - exact Hloaded.
  - intros polled Hpolled loaded. unfold settle.
    rewrite setup_poll_then by assumption. subst loaded.
    rewrite Hloaded. reflexivity.
Qed.

End SetupPanelRuns.

(** ** Both components *)

Section BothPanels.
Context `{Builtins}.




End BothPanels.

(** ** The properties on the sample inputs *)


Lemma later_events_load_nothing :
  Forall (fun ev => SetupPanel.op ev <> SetupPanel.Load) Sample.later_events.
Proof. repeat constructor; discriminate. Qed.

Lemma sample_value_converts :
  ToNumber (H := Sample.builtins) (Get Sample.status_body "max_dac_value")
  = Normal (f64_of_Z 4095).
Proof. vm_compute. reflexivity. Qed.

Lemma sample_bits_convert :
  ToNumber (H := Sample.builtins) (Get Sample.status_body "dac_bits")
  = Normal (f64_of_Z 12).
Proof. vm_compute. reflexivity. Qed.






(** The warning survives a refused submission, a poll that times out and
    a poll that reads the loaded value again. *)
Lemma warning_message_latches_sample :
  SetupPanel.warning_message
    (SetupPanel.self
       (SetupPanel.run (H := Sample.builtins) Sample.later_events Sample.warned_page))
  = VStr SetupPanel.warning_text.
Proof.
  apply (proj2 (warning_message_latches (H := Sample.builtins))
           Sample.later_events Sample.warned_page).
  reflexivity.
Defined.

(** After the sample load, the later events leave the stored value at the
    loaded 4095. *)
Lemma current_max_dac_value_is_the_loaded_one_sample :
  SetupPanel.current_max_dac_value
    (SetupPanel.self
       (SetupPanel.run (H := Sample.builtins) Sample.later_events
          (settle (SetupPanel.load_call (H := Sample.builtins))
             (Axios.Fulfilled Sample.status_response) Sample.setup_page)))
  = Get Sample.status_body "max_dac_value".
Proof.
  apply (current_max_dac_value_is_the_loaded_one (H := Sample.builtins)
           Sample.status_response Sample.later_events Sample.setup_page
           (f64_of_Z 4095) (f64_of_Z 12)
           sample_body_coercible sample_value_converts sample_bits_convert
           later_events_load_nothing).
Defined.

(* ===================================================================== *)
(** * Further properties of the two components *)
(* ===================================================================== *)

Section SettledCalls.
Context `{Builtins}.

(** The [catch] callbacks of the setup panel, call by call. *)
Lemma setup_catch_each (error : Axios.Rejection) (made_in page : SetupPanel.Page) :
  settled SetupPanel.load_call (Axios.Rejected error) page
  = (Normal tt, SetupPanel.set_error_message (failure_message error) page)
  /\ settled SetupPanel.poll_call (Axios.Rejected error) page
     = (Normal tt, SetupPanel.set_error_message (failure_message error) page)
  /\ settled (SetupPanel.submitNewSettings_call made_in) (Axios.Rejected error) page
     = (Normal tt, SetupPanel.set_error_message (failure_message error) page).
Proof.
  repeat split.
  - exact (setup_catch SetupPanel.Load made_in error page).
  - exact (setup_catch SetupPanel.Poll made_in error page).
  - exact (setup_catch SetupPanel.Submit made_in error page).
Qed.

(** X1. No call of either component leaves a rejected promise behind:
    however its request settles, and whatever the body, the chain of
    [then] and [catch] ends normally. *)
Theorem no_call_ends_rejected (o : Axios.Outcome) (self : StatusPanel.Vm)
    (page made_in : SetupPanel.Page) :
  map (fun c => fst (settled c o self))
    [ StatusPanel.filamentOn_call; StatusPanel.filamentOff_call;
      StatusPanel.poll_call ]
  = [ Normal tt; Normal tt; Normal tt ]
  /\ map (fun c => fst (settled c o page))
       [ SetupPanel.load_call; SetupPanel.poll_call;
         SetupPanel.submitNewSettings_call made_in ]
     = [ Normal tt; Normal tt; Normal tt ].
Proof.
  destruct o as [response | error]; cbn [map].
  - destruct (ObjectCoercible (Axios.data response)) eqn:Hbody.
    + rewrite status_poll_then, setup_load_then, setup_poll_then by assumption.
      split; reflexivity.
    + rewrite status_poll_then_throws, setup_load_then_throws,
        setup_poll_then_throws by assumption.
      split; reflexivity.
  - rewrite !status_catch by auto.
    rewrite (setup_catch SetupPanel.Load made_in error page).
    rewrite (setup_catch SetupPanel.Poll made_in error page).
    rewrite (setup_catch SetupPanel.Submit made_in error page).
    split; reflexivity.
Qed.

(** X2. A poll of the status panel that succeeds without a body ([null]
    or [undefined]) is reported as a failure to reach the server:
    [computer_control] and [active_users] keep their values and the status
    message is the fixed text. *)
Theorem status_poll_without_body (response : Axios.Response)
    (self : StatusPanel.Vm)
    (Hbody : ObjectCoercible (Axios.data response) = false) :
  settle StatusPanel.poll_call (Axios.Fulfilled response) self =
    {| StatusPanel.computer_control := StatusPanel.computer_control self;
       StatusPanel.active_users := StatusPanel.active_users self;
       StatusPanel.filament_status_message :=
         VStr "Failed to communicate with server." |}.
Proof. unfold settle. now rewrite status_poll_then_throws. Qed.

(** X3. In the setup panel a load or a poll that succeeds without a body
    stores nothing of it: [error_message] becomes the fixed text and the
    knob value, the stored value and the warning stay. *)
Theorem setup_get_without_body (response : Axios.Response)
    (page : SetupPanel.Page)
    (Hbody : ObjectCoercible (Axios.data response) = false) :
  map (fun c => settle c (Axios.Fulfilled response) page)
    [ SetupPanel.load_call; SetupPanel.poll_call ]
  = (let after :=
       {| SetupPanel.self :=
            {| SetupPanel.max_virtual_knob_value :=
                 SetupPanel.max_virtual_knob_value (SetupPanel.self page);
               SetupPanel.current_max_dac_value :=
                 SetupPanel.current_max_dac_value (SetupPanel.self page);
               SetupPanel.error_message :=
                 VStr "Failed to communicate with server.";
               SetupPanel.warning_message :=
                 SetupPanel.warning_message (SetupPanel.self page) |};
          SetupPanel.window_location_href :=
            SetupPanel.window_location_href page |} in
     [ after; after ]).
Proof.
  cbn [map]. unfold settle.
  rewrite setup_load_then_throws, setup_poll_then_throws by assumption.
  reflexivity.
Qed.

(** X4. A poll of the status panel that succeeds with a body that is a
    text, a Number or a Boolean (anything but an object) blanks the three
    fields: each becomes [undefined]. *)
Theorem status_poll_body_not_an_object (response : Axios.Response)
    (self : StatusPanel.Vm)
    (Hbody : ObjectCoercible (Axios.data response) = true)
    (Hplain : forall r props, Axios.data response <> VObj r props) :
  settle StatusPanel.poll_call (Axios.Fulfilled response) self =
    {| StatusPanel.computer_control := VUndefined;
       StatusPanel.active_users := VUndefined;
       StatusPanel.filament_status_message := VUndefined |}.
Proof.
  unfold settle. rewrite status_poll_then by assumption. cbn [snd].
  destruct (Axios.data response) as [| | b | x | s | r props]; try reflexivity.
  now contradiction (Hplain r props).
Qed.

(** X9. In the status panel the message never sticks: after any of the
    three calls has settled, in any way, [filament_status_message] is a
    function of the outcome alone, whatever was shown before. *)
Theorem status_message_is_the_last_one (o : Axios.Outcome)
    (before before' : StatusPanel.Vm) :
  map (fun c => StatusPanel.filament_status_message (settle c o before))
    [ StatusPanel.filamentOn_call; StatusPanel.filamentOff_call;
      StatusPanel.poll_call ]
  = map (fun c => StatusPanel.filament_status_message (settle c o before'))
      [ StatusPanel.filamentOn_call; StatusPanel.filamentOff_call;
        StatusPanel.poll_call ].
Proof.
  cbn [map]. unfold settle. destruct o as [response | error].
  - destruct (ObjectCoercible (Axios.data response)) eqn:Hbody.
    + rewrite !status_poll_then by assumption. reflexivity.
    + rewrite !status_poll_then_throws by assumption. reflexivity.
  - rewrite !status_catch by auto. reflexivity.
Qed.

(** X14. Settling a call twice with the same outcome leaves what settling
    it once leaves, for each of the six calls: a poll that keeps reading
    the same answer changes nothing after the first time. *)
Theorem settling_again_changes_nothing (o : Axios.Outcome)
    (self : StatusPanel.Vm) (page made_in : SetupPanel.Page) :
  map (fun c => settle c o (settle c o self))
    [ StatusPanel.filamentOn_call; StatusPanel.filamentOff_call;
      StatusPanel.poll_call ]
  = map (fun c => settle c o self)
      [ StatusPanel.filamentOn_call; StatusPanel.filamentOff_call;
        StatusPanel.poll_call ]
  /\ map (fun c => settle c o (settle c o page))
       [ SetupPanel.load_call; SetupPanel.poll_call;
         SetupPanel.submitNewSettings_call made_in ]
     = map (fun c => settle c o page)
         [ SetupPanel.load_call; SetupPanel.poll_call;
           SetupPanel.submitNewSettings_call made_in ].
Proof.
  cbn [map]. unfold settle. destruct o as [response | error].
  - destruct (ObjectCoercible (Axios.data response)) eqn:Hbody.
    + rewrite !status_poll_then, !setup_load_then, !setup_poll_then by assumption.
      cbn [snd]. split; [ reflexivity | ].
      destruct (SetupPanel.knob_value _ _) as [knob | thrown];
        destruct (strict_not_equals
                    (SetupPanel.current_max_dac_value (SetupPanel.self page))
                    (Get (Axios.data response) "max_dac_value")) eqn:Hdiffers;
        cbn; rewrite ?Hdiffers; reflexivity.
    + rewrite !status_poll_then_throws, !setup_load_then_throws,
        !setup_poll_then_throws by assumption.
      split; reflexivity.
  - rewrite !status_catch by auto.
    pose proof (fun p => proj1 (setup_catch_each error made_in p)) as Hload.
    pose proof (fun p => proj1 (proj2 (setup_catch_each error made_in p))) as Hpoll.
    pose proof (fun p => proj2 (proj2 (setup_catch_each error made_in p))) as Hsubmit.
    rewrite !Hload, !Hpoll, !Hsubmit.
    split; reflexivity.
Qed.

End SettledCalls.

Section SetupPanelEdges.
Import SetupPanel.
Context `{Builtins}.

(** Events other than a fulfilled load leave the knob value alone. *)
Lemma step_max_virtual_knob_value (page : Page) (ev : Event) :
  op ev <> Load ->
  max_virtual_knob_value (self (step page ev)) = max_virtual_knob_value (self page).
Proof.
  intros Hop.
  destruct (step_cases page ev)
    as [-> | [-> | [[_ ->] | [[_ ->] | [Hload _]]]]]; try reflexivity.
  contradiction.
Qed.

Lemma run_max_virtual_knob_value (evs : list Event) (page : Page) :
  Forall (fun ev => op ev <> Load) evs ->
  max_virtual_knob_value (self (run evs page)) = max_virtual_knob_value (self page).
Proof.
  revert page. induction evs as [| ev evs IH]; intros page Hevs.
  - reflexivity.
  - inversion Hevs as [| ? ? Hev Hrest]; subst.
    rewrite run_cons, IH by assumption. now apply step_max_virtual_knob_value.
Qed.

(** An event moves the location to ["/"] or leaves it. *)
Lemma step_window_location_href (page : Page) (ev : Event) :
  window_location_href (step page ev) = window_location_href page
  \/ (window_location_href (step page ev) = "/"
      /\ op ev = Submit /\ exists response, outcome ev = Axios.Fulfilled response).
Proof.
  destruct ev as [o issued [response | error]]; unfold step, settle;
    cbn [op made_in outcome].
  - destruct o; cbn [call_of].
    + destruct (ObjectCoercible (Axios.data response)) eqn:Hbody.
      * rewrite setup_load_then by assumption. cbn [snd].
        destruct (knob_value _ _); left; reflexivity.
      * rewrite setup_load_then_throws by assumption. left. reflexivity.
    + destruct (ObjectCoercible (Axios.data response)) eqn:Hbody.
      * rewrite setup_poll_then by assumption. cbn [snd].
        destruct (strict_not_equals _ _); left; reflexivity.
      * rewrite setup_poll_then_throws by assumption. left. reflexivity.
    + right. repeat split. now exists response.
  - rewrite setup_catch. left. reflexivity.
Qed.


(** X6. A poll that reads the very answer the load read changes nothing,
    when the load stored it: the body has properties, its [max_dac_value]
    is no object and not NaN, and its [dac_bits] converts to a Number. *)
Theorem poll_of_the_loaded_response_is_silent (response : Axios.Response)
    (page : Page) (exponent : float64)
    (Hbody : ObjectCoercible (Axios.data response) = true)
    (Hplain : forall r props,
        Get (Axios.data response) "max_dac_value" <> VObj r props)
    (Hnumber : Get (Axios.data response) "max_dac_value" <> VNum NaN)
    (Hbits : ToNumber (Get (Axios.data response) "dac_bits") = Normal exponent) :
  settle poll_call (Axios.Fulfilled response)
    (settle load_call (Axios.Fulfilled response) page)
  = settle load_call (Axios.Fulfilled response) page.
Proof.
  destruct (ToNumber_primitive _ Hplain) as [dividend Hvalue].
  unfold settle.
  rewrite (setup_load_then_converted _ _ _ _ Hbody Hvalue Hbits). cbn [snd].
  rewrite setup_poll_then by assumption.
  unfold strict_not_equals. cbn [self current_max_dac_value].
  rewrite strict_equals_refl by assumption. reflexivity.
Qed.

(** X7. A successful poll that does not leave the warning text on the
    page has left the whole page as it was, and the value it read is the
    stored one: the same value, or both are zeros, or both are the same
    object. *)
Theorem quiet_poll_read_the_stored_value (response : Axios.Response)
    (page : Page)
    (Hbody : ObjectCoercible (Axios.data response) = true)
    (Hquiet : warning_message
                (self (settle poll_call (Axios.Fulfilled response) page))
              <> VStr warning_text) :
  settle poll_call (Axios.Fulfilled response) page = page
  /\ (current_max_dac_value (self page) = Get (Axios.data response) "max_dac_value"
      \/ (exists s1 s2,
            current_max_dac_value (self page) = VNum (S754_zero s1)
            /\ Get (Axios.data response) "max_dac_value" = VNum (S754_zero s2))
      \/ (exists r props1 props2,
            current_max_dac_value (self page) = VObj r props1
            /\ Get (Axios.data response) "max_dac_value" = VObj r props2)).
Proof.
  unfold settle in *. rewrite setup_poll_then in * by assumption.
  unfold strict_not_equals in *.
  destruct (strict_equals (current_max_dac_value (self page))
              (Get (Axios.data response) "max_dac_value")) eqn:Hsame;
    cbn [negb snd] in *.
  - split; [ reflexivity | ]. now apply strict_equals_true.
  - contradiction Hquiet. reflexivity.
Qed.

(** The [then] callbacks of the load and of the poll on their own. *)
Lemma load_on_then (response : Axios.Response) (page : Page) :
  on_then load_call response page =
    if ObjectCoercible (Axios.data response) then
      match knob_value (Get (Axios.data response) "max_dac_value")
              (Get (Axios.data response) "dac_bits") with
      | Normal knob =>
          (Normal tt,
           set_current_max_dac_value (Get (Axios.data response) "max_dac_value")
             (set_max_virtual_knob_value (VStr knob) page))
      | Throw error => (Throw error, page)
      end
    else (Throw Axios.TypeError, page).
Proof.
  unfold load_call, on_then, bind, lift.
  destruct (ObjectCoercible (Axios.data response)) eqn:Hbody.
  - repeat (rewrite (GetV_coercible _ _ _ Hbody); cbn).
    destruct (knob_value _ _); cbn; [ | reflexivity ].
    rewrite (GetV_coercible _ _ _ Hbody). reflexivity.
  - rewrite (GetV_throws _ _ _ Hbody). reflexivity.
Qed.

Lemma poll_on_then (response : Axios.Response) (page : Page) :
  on_then poll_call response page =
    if ObjectCoercible (Axios.data response) then
      (Normal tt,
       if strict_not_equals (current_max_dac_value (self page))
            (Get (Axios.data response) "max_dac_value")
       then set_warning_message (VStr warning_text) page
       else page)
    else (Throw Axios.TypeError, page).
Proof.
  unfold poll_call, on_then, bind, read.
  destruct (ObjectCoercible (Axios.data response)) eqn:Hbody.
  - rewrite (GetV_coercible _ _ _ Hbody); cbn.
    destruct (strict_not_equals _ _); reflexivity.
  - rewrite (GetV_throws _ _ _ Hbody). reflexivity.
Qed.

(** X8. Success never clears [error_message]: when the [then] callback
    of a load, a poll or a submission runs to its end, the error message
    shown before is still shown. *)
Theorem success_keeps_the_error_message (ev : Event) (page : Page)
    (response : Axios.Response)
    (Hsuccess : outcome ev = Axios.Fulfilled response)
    (Hdone : fst (on_then (call_of (op ev) (made_in ev)) response page)
             = Normal tt) :
  error_message (self (step page ev)) = error_message (self page).
Proof.
  destruct ev as [o issued result]. cbn [outcome] in Hsuccess. subst result.
  unfold step, settle, settled, then_catch. cbn [op made_in outcome] in *.
  destruct o; cbn [call_of] in *.
  - rewrite load_on_then in *.
    destruct (ObjectCoercible (Axios.data response)); [ | discriminate ].
    destruct (knob_value _ _); [ reflexivity | discriminate ].
  - rewrite poll_on_then in *.
    destruct (ObjectCoercible (Axios.data response)); [ | discriminate ].
    cbn [snd]. destruct (strict_not_equals _ _); reflexivity.
  - reflexivity.
Qed.

(** X15. The page leaves for ["/"] and for nowhere else, and only when a
    submission has succeeded: after any events the location is the one
    before or ["/"], and events among which no submission succeeded leave
    it. *)
Theorem location_moves_only_after_a_submission (evs : list Event) (page : Page) :
  (window_location_href (run evs page) = window_location_href page
   \/ window_location_href (run evs page) = "/")
  /\ (Forall (fun ev => op ev <> Submit
                        \/ exists error, outcome ev = Axios.Rejected error) evs ->
      window_location_href (run evs page) = window_location_href page).
Proof.
  split.
  - revert page. induction evs as [| ev evs IH]; intros page.
    + left. reflexivity.
    + rewrite run_cons.
      destruct (IH (step page ev)) as [Hsame | Hroot]; [ | now right ].
      rewrite Hsame.
      destruct (step_window_location_href page ev) as [Hstep | [Hstep _]]; auto.
  - revert page. induction evs as [| ev evs IH]; intros page Hevs.
    + reflexivity.
    + inversion Hevs as [| ? ? Hev Hrest]; subst.
      rewrite run_cons, IH by assumption.
      destruct (step_window_location_href page ev)
        as [Hstep | (_ & Hop & response & Hout)]; [ exact Hstep | ].
      destruct Hev as [Hnot | [error Hrejected]]; [ contradiction | congruence ].
Qed.

(** X16. What a submission sends after a load that succeeded, with a
    body that has properties and whose [max_dac_value] and [dac_bits]
    convert to Numbers, whatever polls and submissions settled in between:
    [parseFloat] of the text the load computed from the two Numbers. *)
Theorem submission_after_load_posts_the_loaded_knob (response : Axios.Response)
    (evs : list Event) (page : Page) (dividend exponent : float64)
    (Hbody : ObjectCoercible (Axios.data response) = true)
    (Hvalue : ToNumber (Get (Axios.data response) "max_dac_value") = Normal dividend)
    (Hbits : ToNumber (Get (Axios.data response) "dac_bits") = Normal exponent)
    (Hevs : Forall (fun ev => op ev <> Load) evs) :
  map request
    (submitNewSettings (run evs (settle load_call (Axios.Fulfilled response) page)))
  = [ {| Axios.method := Axios.POST;
         Axios.url := "/setup";
         Axios.timeout := None;
         Axios.body :=
           Some [ ("max_virtual_knob_value",
                   VNum (parseFloat
                           (VStr (Number_toPrecision
                                    (f64_mul
                                       (f64_div dividend
                                          (f64_sub (Math_pow (f64_of_Z 2) exponent)
                                             (f64_of_Z 1)))
                                       (f64_of_Z 10))
                                    2)))) ];
         Axios.headers := [ ("Content-Type", "multipart/form-data") ] |} ].
Proof.
  unfold submitNewSettings, submitNewSettings_call. cbn [map request].
  rewrite run_max_virtual_knob_value by assumption.
  unfold settle.
  rewrite (setup_load_then_converted _ _ _ _ Hbody Hvalue Hbits). reflexivity.
Qed.

End SetupPanelEdges.

Section KnobValueEdges.
Import SetupPanel.
Context `{Builtins}.

(** X10. A load whose body has no [max_dac_value] shows ["NaN"] as the
    knob value and stores [undefined], whatever Number [dac_bits] converts
    to and whatever the built-ins answer. *)
Theorem load_without_max_dac_value (response : Axios.Response) (page : Page)
    (exponent : float64)
    (Hbody : ObjectCoercible (Axios.data response) = true)
    (Hmissing : Get (Axios.data response) "max_dac_value" = VUndefined)
    (Hbits : ToNumber (Get (Axios.data response) "dac_bits") = Normal exponent) :
  settle load_call (Axios.Fulfilled response) page =
    {| self :=
         {| max_virtual_knob_value := VStr "NaN";
            current_max_dac_value := VUndefined;
            error_message := error_message (self page);
            warning_message := warning_message (self page) |};
       window_location_href := window_location_href page |}.
Proof.
  unfold settle.
  rewrite (setup_load_then_converted response page NaN exponent Hbody)
    by (rewrite ?Hmissing; auto).
  rewrite Hmissing. reflexivity.
Qed.

(** X17. A load whose body has no [dac_bits] shows ["NaN"] too, whatever
    Number [max_dac_value] converts to, and still stores [max_dac_value];
    this rests on [Math.pow] answering NaN for the exponent NaN, as the
    standard has it. *)
Theorem load_without_dac_bits (response : Axios.Response) (page : Page)
    (dividend : float64)
    (Hbody : ObjectCoercible (Axios.data response) = true)
    (Hmissing : Get (Axios.data response) "dac_bits" = VUndefined)
    (Hvalue : ToNumber (Get (Axios.data response) "max_dac_value") = Normal dividend)
    (Hpow : Math_pow (f64_of_Z 2) NaN = NaN) :
  settle load_call (Axios.Fulfilled response) page =
    {| self :=
         {| max_virtual_knob_value := VStr "NaN";
            current_max_dac_value := Get (Axios.data response) "max_dac_value";
            error_message := error_message (self page);
            warning_message := warning_message (self page) |};
       window_location_href := window_location_href page |}.
Proof.
  unfold settle.
  rewrite (setup_load_then_converted response page dividend NaN Hbody)
    by (rewrite ?Hmissing; auto).
  rewrite Hpow. cbn [snd]. destruct dividend; reflexivity.
Qed.

(** X18. A load that succeeds with a body whose [max_dac_value] or
    [dac_bits] is an object with a property [toString] of its own stores
    nothing: the conversion to a Number throws, neither field is assigned,
    and [error_message] becomes the fixed text. *)
Theorem load_of_an_object_without_primitive_value (response : Axios.Response)
    (page : Page) (name : string) (r : nat) (props : gmap string JsVal)
    (Hbody : ObjectCoercible (Axios.data response) = true)
    (Hname : name = "max_dac_value" \/ name = "dac_bits")
    (Hobject : Get (Axios.data response) name = VObj r props)
    (Hown : is_Some (props !! "toString")) :
  settle load_call (Axios.Fulfilled response) page =
    {| self :=
         {| max_virtual_knob_value := max_virtual_knob_value (self page);
            current_max_dac_value := current_max_dac_value (self page);
            error_message := VStr "Failed to communicate with server.";
            warning_message := warning_message (self page) |};
       window_location_href := window_location_href page |}.
Proof.
  assert (ToNumber (Get (Axios.data response) name) = Throw Axios.TypeError)
    as Hthrows.
  { rewrite Hobject. cbn. destruct Hown as [own ->]. reflexivity. }
  unfold settle. rewrite setup_load_then by assumption. cbn [snd].
  destruct (knob_value_cases (Get (Axios.data response) "max_dac_value")
              (Get (Axios.data response) "dac_bits")) as [[knob Hknob] | ->];
    [ | reflexivity ].
  exfalso. unfold knob_value in Hknob.
  destruct Hname as [-> | ->].
  - rewrite Hthrows in Hknob.
    destruct (ToNumber (Get (Axios.data response) "dac_bits")); discriminate.
  - rewrite Hthrows in Hknob. discriminate.
Qed.

(** X11. With [dac_bits] zero the scale divides by zero: a positive
    [max_dac_value] shows ["Infinity"], a negative one ["-Infinity"] and
    zero ["NaN"]; this rests on [Math.pow] answering 1 for the exponent
    zero, as the standard has it. *)
Theorem knob_value_with_no_bits (s : bool)
    (Hpow : Math_pow (f64_of_Z 2) (S754_zero s) = f64_of_Z 1) :
  (forall sign m e,
      knob_value (VNum (S754_finite sign m e)) (VNum (S754_zero s))
      = Normal (if sign then "-Infinity" else "Infinity"))
  /\ (forall sign,
      knob_value (VNum (S754_zero sign)) (VNum (S754_zero s)) = Normal "NaN").
Proof.
  unfold knob_value. cbn [ToNumber]. rewrite Hpow.
  split; intros [ | ]; reflexivity.
Qed.

(** X12. The two ends of the scale, for converters of 1 to 32 bits: zero
    shows ["0.0"] and the full scale [2^bits - 1] shows ["10"]; this rests
    on [Math.pow] answering the exact power of two. *)
Theorem knob_value_at_the_ends_of_the_scale (bits : Z)
    (Hbits : 1 <= bits <= 32)
    (Hpow : Math_pow (f64_of_Z 2) (f64_of_Z bits) = f64_of_Z (2 ^ bits)) :
  knob_value (VNum (f64_of_Z 0)) (VNum (f64_of_Z bits)) = Normal "0.0"
  /\ knob_value (VNum (f64_of_Z (2 ^ bits - 1))) (VNum (f64_of_Z bits))
     = Normal "10".
Proof.
  unfold knob_value. cbn [ToNumber]. rewrite Hpow. clear Hpow.
  assert (In bits (map Z.of_nat (seq 1 32))) as Hin.
  { apply in_map_iff. exists (Z.to_nat bits). split; [ lia | ].
    apply in_seq. lia. }
  cbn in Hin.
  repeat (destruct Hin as [<- | Hin]; [ split; vm_compute; reflexivity | ]).
  contradiction.
Qed.

End KnobValueEdges.

Section Schedules.
Context `{Builtins}.

(** X13. Polls of one panel never overlap on the schedule: the timeout of
    a poll has run out before the timer sends the next request.  In the
    status panel this holds of every request; in the setup panel of every
    request but the load made when the component is mounted. *)
Theorem poll_requests_do_not_overlap (t1 t2 : Z)
    (self : StatusPanel.Vm) (page : SetupPanel.Page)
    (Horder : t1 < t2) :
  (forall sent,
      In sent (requests_at StatusPanel.mounted t1 self) ->
      requests_at StatusPanel.mounted t2 self <> [] ->
      exists limit, Axios.timeout sent = Some limit /\ t1 + limit < t2)
  /\ (forall sent,
      0 < t1 ->
      In sent (requests_at SetupPanel.mounted t1 page) ->
      requests_at SetupPanel.mounted t2 page <> [] ->
      exists limit, Axios.timeout sent = Some limit /\ t1 + limit < t2).
Proof.
  assert (forall a b, a < b ->
            (0 <? a) && (a mod 500 =? 0) = true ->
            (0 <? b) && (b mod 500 =? 0) = true -> a + 450 < b) as Hgap.
  { intros a b Hab Ha Hb.
    apply andb_prop in Ha as [_ Ha]. apply andb_prop in Hb as [_ Hb].
    apply Z.eqb_eq in Ha, Hb.
    pose proof (Z.div_mod a 500 ltac:(lia)).
    pose proof (Z.div_mod b 500 ltac:(lia)). lia. }
  split.
  - intros sent. rewrite !status_schedule.
    destruct ((0 <? t1) && (t1 mod 500 =? 0)) eqn:H1; [ | contradiction ].
    destruct ((0 <? t2) && (t2 mod 500 =? 0)) eqn:H2; [ | contradiction ].
    intros [<- | []] _. exists 450. split; [ reflexivity | ]. now apply Hgap.
  - intros sent Hpos. rewrite !setup_schedule.
    assert ((t1 =? 0) = false) as -> by (apply Z.eqb_neq; lia).
    assert ((t2 =? 0) = false) as -> by (apply Z.eqb_neq; lia).
    destruct ((0 <? t1) && (t1 mod 500 =? 0)) eqn:H1; [ | contradiction ].
    destruct ((0 <? t2) && (t2 mod 500 =? 0)) eqn:H2; [ | contradiction ].
    intros [<- | []] _. exists 450. split; [ reflexivity | ]. now apply Hgap.
Qed.

End Schedules.

(** ** The further properties on the sample inputs *)

Lemma later_events_submit_nothing :
  Forall (fun ev => SetupPanel.op ev <> SetupPanel.Submit
                    \/ exists error, SetupPanel.outcome ev = Axios.Rejected error)
    Sample.later_events.
Proof.
  unfold Sample.later_events.
  repeat (apply List.Forall_cons;
          [ first [ left; discriminate | right; eexists; reflexivity ] | ]).
  apply List.Forall_nil.
Qed.

Lemma sample_pow_of_twelve :
  Math_pow (Builtins := Sample.builtins) (f64_of_Z 2) (f64_of_Z 12) = f64_of_Z (2 ^ 12).
Proof. vm_compute. reflexivity. Qed.

(** A poll answered [null] on the status panel as it starts. *)
Lemma status_poll_without_body_sample :
  settle StatusPanel.poll_call (Axios.Fulfilled Sample.null_response)
    StatusPanel.data
  = {| StatusPanel.computer_control := VBool true;
       StatusPanel.active_users := VNum (S754_zero false);
       StatusPanel.filament_status_message :=
         VStr "Failed to communicate with server." |}.
Proof.
  exact (status_poll_without_body Sample.null_response StatusPanel.data eq_refl).
Defined.

(** A load answered [null] on the setup page as it opens. *)
Lemma setup_get_without_body_sample :
  settle (SetupPanel.load_call (H := Sample.builtins))
    (Axios.Fulfilled Sample.null_response) Sample.setup_page
  = SetupPanel.set_error_message (VStr "Failed to communicate with server.")
      Sample.setup_page.
Proof.
  pose proof (setup_get_without_body (H := Sample.builtins) Sample.null_response
                Sample.setup_page eq_refl) as Hboth.
  cbn [map] in Hboth. now inversion Hboth.
Defined.

(** A poll answered with a text. *)
Lemma status_poll_body_not_an_object_sample :
  settle StatusPanel.poll_call (Axios.Fulfilled Sample.text_response)
    StatusPanel.data
  = {| StatusPanel.computer_control := VUndefined;
       StatusPanel.active_users := VUndefined;
       StatusPanel.filament_status_message := VUndefined |}.
Proof.
  apply (status_poll_body_not_an_object Sample.text_response StatusPanel.data eq_refl).
  intros r props. discriminate.
Defined.


(** The sample response, loaded and then polled. *)
Lemma poll_of_the_loaded_response_is_silent_sample :
  settle SetupPanel.poll_call (Axios.Fulfilled Sample.status_response)
    (settle (SetupPanel.load_call (H := Sample.builtins))
       (Axios.Fulfilled Sample.status_response) Sample.setup_page)
  = settle (SetupPanel.load_call (H := Sample.builtins))
      (Axios.Fulfilled Sample.status_response) Sample.setup_page.
Proof.
  apply (poll_of_the_loaded_response_is_silent (H := Sample.builtins)
           Sample.status_response Sample.setup_page (f64_of_Z 12)
           sample_body_coercible).
  - intros r props. vm_compute. discriminate.
  - vm_compute. discriminate.
  - exact sample_bits_convert.
Defined.

(** A poll that reads 4095 on the loaded page. *)
Lemma quiet_poll_read_the_stored_value_sample :
  settle SetupPanel.poll_call (Axios.Fulfilled Sample.status_response)
    Sample.loaded_page
  = Sample.loaded_page.
Proof.
  apply (quiet_poll_read_the_stored_value Sample.status_response
           Sample.loaded_page eq_refl).
  vm_compute. discriminate.
Defined.

(** A poll that succeeds after a refused submission: the refusal is still
    shown. *)
Lemma success_keeps_the_error_message_sample :
  SetupPanel.error_message
    (SetupPanel.self
       (SetupPanel.step (H := Sample.builtins) Sample.refused_page
          {| SetupPanel.op := SetupPanel.Poll;
             SetupPanel.made_in := Sample.refused_page;
             SetupPanel.outcome := Axios.Fulfilled Sample.changed_response |}))
  = VStr "Invalid max virtual knob value.".
Proof.
  exact (success_keeps_the_error_message (H := Sample.builtins)
           {| SetupPanel.op := SetupPanel.Poll;
              SetupPanel.made_in := Sample.refused_page;
              SetupPanel.outcome := Axios.Fulfilled Sample.changed_response |}
           Sample.refused_page Sample.changed_response eq_refl eq_refl).
Defined.

(** A load answered with an object without properties. *)
Lemma load_without_max_dac_value_sample :
  SetupPanel.self
    (settle (SetupPanel.load_call (H := Sample.builtins))
       (Axios.Fulfilled Sample.bare_response) Sample.setup_page)
  = {| SetupPanel.max_virtual_knob_value := VStr "NaN";
       SetupPanel.current_max_dac_value := VUndefined;
       SetupPanel.error_message := VStr "";
       SetupPanel.warning_message := VStr "" |}.
Proof.
  rewrite (load_without_max_dac_value (H := Sample.builtins) Sample.bare_response
             Sample.setup_page NaN eq_refl eq_refl eq_refl).
  reflexivity.
Defined.

(** A load answered without [dac_bits]. *)
Lemma load_without_dac_bits_sample :
  SetupPanel.self
    (settle (SetupPanel.load_call (H := Sample.builtins))
       (Axios.Fulfilled Sample.bitless_response) Sample.setup_page)
  = {| SetupPanel.max_virtual_knob_value := VStr "NaN";
       SetupPanel.current_max_dac_value := VNum (f64_of_Z 4095);
       SetupPanel.error_message := VStr "";
       SetupPanel.warning_message := VStr "" |}.
Proof.
  rewrite (load_without_dac_bits (H := Sample.builtins) Sample.bitless_response
             Sample.setup_page (f64_of_Z 4095) eq_refl eq_refl eq_refl eq_refl).
  reflexivity.
Defined.

(** A load answered [{"max_dac_value": {"toString": 1}, "dac_bits": 12}]. *)
Lemma load_of_an_object_without_primitive_value_sample :
  settle (SetupPanel.load_call (H := Sample.builtins))
    (Axios.Fulfilled Sample.hostile_response) Sample.setup_page
  = SetupPanel.set_error_message (VStr "Failed to communicate with server.")
      Sample.setup_page.
Proof.
  apply (load_of_an_object_without_primitive_value (H := Sample.builtins)
           Sample.hostile_response Sample.setup_page "max_dac_value" 6
           (<["toString" := VNum (f64_of_Z 1)]> ∅) eq_refl).
  - left. reflexivity.
  - vm_compute. reflexivity.
  - exists (VNum (f64_of_Z 1)). vm_compute. reflexivity.
Defined.

(** 4095 on a converter of no bits. *)
Lemma knob_value_with_no_bits_sample :
  SetupPanel.knob_value (H := Sample.builtins)
    (VNum (S754_finite false 9005000231485440%positive (-41))) (VNum (S754_zero false))
  = Normal "Infinity".
Proof.
  exact (proj1 (knob_value_with_no_bits (H := Sample.builtins) false eq_refl)
           false 9005000231485440%positive (-41)).
Defined.

(** The 12-bit converter. *)
Lemma knob_value_at_the_ends_of_the_scale_sample :
  SetupPanel.knob_value (H := Sample.builtins)
    (VNum (f64_of_Z 0)) (VNum (f64_of_Z 12)) = Normal "0.0"
  /\ SetupPanel.knob_value (H := Sample.builtins)
       (VNum (f64_of_Z (2 ^ 12 - 1))) (VNum (f64_of_Z 12)) = Normal "10".
Proof.
  apply (knob_value_at_the_ends_of_the_scale (H := Sample.builtins) 12).
  - lia.
  - exact sample_pow_of_twelve.
Defined.

(** The polls of the status panel sent at 500 ms and at 1000 ms. *)
Lemma poll_requests_do_not_overlap_sample :
  exists limit,
    Axios.timeout (Axios.get "/status" (Some 450)) = Some limit
    /\ 500 + limit < 1000.
Proof.
  apply (proj1 (poll_requests_do_not_overlap (H := Sample.builtins) 500 1000
                  StatusPanel.data Sample.setup_page ltac:(lia))).
  - left. reflexivity.
  - discriminate.
Defined.

(** The sample events hold a refused submission and no other: the
    location stays. *)
Lemma location_moves_only_after_a_submission_sample :
  SetupPanel.window_location_href
    (SetupPanel.run (H := Sample.builtins) Sample.later_events Sample.warned_page)
  = "/setup".
Proof.
  exact (proj2 (location_moves_only_after_a_submission (H := Sample.builtins)
                  Sample.later_events Sample.warned_page)
           later_events_submit_nothing).
Defined.

(** After the sample load and the sample events, a submission posts
    [parseFloat] of ["10"], the Number 10. *)
Lemma submission_after_load_posts_the_loaded_knob_sample :
  map request
    (SetupPanel.submitNewSettings (H := Sample.builtins)
       (SetupPanel.run (H := Sample.builtins) Sample.later_events
          (settle (SetupPanel.load_call (H := Sample.builtins))
             (Axios.Fulfilled Sample.status_response) Sample.setup_page)))
  = [ {| Axios.method := Axios.POST;
         Axios.url := "/setup";
         Axios.timeout := None;
         Axios.body :=
           Some [ ("max_virtual_knob_value", VNum (f64_of_Z 10)) ];
         Axios.headers := [ ("Content-Type", "multipart/form-data") ] |} ].
Proof.
  rewrite (submission_after_load_posts_the_loaded_knob (H := Sample.builtins)
             Sample.status_response Sample.later_events Sample.setup_page
             (f64_of_Z 4095) (f64_of_Z 12)
             sample_body_coercible sample_value_converts sample_bits_convert
             later_events_load_nothing).
  vm_compute. reflexivity.
Defined.
